(** * Scout orchestrator: intent-based routing of a multi-step plan

    A shallow embedding of [ScoutOrchestrator.forward]
    (post5-dspy-orchestration-tool-sprawl.py) together with the plan-step
    schema and the agents' [forward] wrappers, and the properties of plan
    repair, execution, context threading and synthesis.

    Modelling conventions.
    - A Python [str] is a [string]; [str.lower] and [str.upper] are the ASCII
      case mappings.  The registry keys are the ASCII words search, retrieve
      and analyze; no non-ASCII character lower-cases to a letter of these
      words, hence membership of a lower-cased intent in the registry is the
      same under the ASCII mapping.
    - A step dict of the planner is a finite map from key to Python value:
      the [QueryPlanning.plan] field is a [List[dict]], whose values are
      texts or any other object (None, a number, a list).  A value that is
      not a text is kept by the text [str()] prints for it, the one
      operation the orchestrator applies to it besides [.lower()], which it
      does not have.  [d.get(k, dflt)] is [default dflt (d !! k)].
    - A raised exception is the left summand of a sum; the agents and the
      planner are the DSPy modules behind them and enter as parameters.
    - Console output ([print]) is not part of the model.
    - The search and retrieve tools work on the two mock datasets, dict
      literals kept as the lists of their items; on a tool argument of ASCII
      characters the case mappings are those of Python.  The analyze tools
      format floating-point numbers and are left out. *)

From Stdlib Require Import Ascii String.
From stdpp Require Import base option list strings pretty gmap fin_maps.

Open Scope string_scope.
Open Scope list_scope.

(** ** Python strings *)

Module PyStr.

Definition is_upper (c : ascii) : bool :=
  let n := nat_of_ascii c in (65 <=? n)%nat && (n <=? 90)%nat.

Definition is_lower (c : ascii) : bool :=
  let n := nat_of_ascii c in (97 <=? n)%nat && (n <=? 122)%nat.

Definition lower_char (c : ascii) : ascii :=
  if is_upper c then ascii_of_nat (nat_of_ascii c + 32) else c.

Definition upper_char (c : ascii) : ascii :=
  if is_lower c then ascii_of_nat (nat_of_ascii c - 32) else c.

(** [s.lower()] *)
Fixpoint lower (s : string) : string :=
  match s with
  | EmptyString => EmptyString
  | String c s' => String (lower_char c) (lower s')
  end.

(** [s.upper()] *)
Fixpoint upper (s : string) : string :=
  match s with
  | EmptyString => EmptyString
  | String c s' => String (upper_char c) (upper s')
  end.

(** The line feed of the [\n] escapes. *)
Definition nl : string := String (ascii_of_nat 10) EmptyString.

(** [sep.join(l)] *)
Definition join (sep : string) (l : list string) : string :=
  String.concat sep l.

(** [f"{i}"] for a non-negative int. *)
Definition of_nat (i : nat) : string := pretty i.

(** [not s], [s or dflt]: the empty string is the only falsy one. *)
Definition or (s dflt : string) : string :=
  match s with
  | EmptyString => dflt
  | _ => s
  end.

(** A blank text: empty, or of ASCII white space only. *)
Fixpoint is_blank (s : string) : bool :=
  match s with
  | EmptyString => true
  | String c s' => Ascii.is_space c && is_blank s'
  end.

End PyStr.

(** ** Python operators on texts and dicts

    A dict literal whose iteration order matters is the list of its items in
    insertion order; its keys are pairwise different. *)

(** [sub in s] for two texts. *)
Fixpoint str_contains (sub s : string) : bool :=
  String.prefix sub s ||
  match s with
  | EmptyString => false
  | String _ s' => str_contains sub s'
  end.

(** A text of ASCII characters, on which the case mappings of [PyStr] are
    those of Python. *)
Fixpoint str_is_ascii (s : string) : bool :=
  match s with
  | EmptyString => true
  | String c s' => (nat_of_ascii c <? 128)%nat && str_is_ascii s'
  end.

(** [d.get(k)] *)
Fixpoint dict_get {V : Type} (d : list (string * V)) (k : string) : option V :=
  match d with
  | [] => None
  | (k', v) :: d' => if String.eqb k' k then Some v else dict_get d' k
  end.

(** [d.keys()] *)
Definition dict_keys {V : Type} (d : list (string * V)) : list string := fst <$> d.

(** ** Mock data *)

Record Ticket := mkTicket {
  ticket_title : string;
  ticket_status : string;
  ticket_assignee : string;
  ticket_priority : string;
  ticket_description : string;
  ticket_created : string;
  ticket_updated : string
}.

Record Doc := mkDoc {
  doc_title : string;
  doc_content : string;
  doc_updated : string
}.

Definition JIRA_TICKETS : list (string * Ticket) :=
  [ ("SHOP-2847",
     mkTicket "Safari checkout crashes on iOS 17" "In Review" "Alice Chen" "P0"
       "Users on Safari 17/iOS report checkout crashes at payment step. Hotfix deployed yesterday, monitoring for recovery."
       "2025-01-15" "2025-01-18");
    ("SHOP-2901",
     mkTicket "Payment gateway timeout" "Open" "Bob Smith" "P1"
       "Stripe webhook timeouts causing order confirmation delays."
       "2025-01-16" "2025-01-17");
    ("SHOP-3001",
     mkTicket "Mobile web performance degradation" "In Progress" "Carol Wang" "P1"
       "Mobile page load times increased 20% after new analytics integration."
       "2025-01-14" "2025-01-18");
    ("SHOP-2955",
     mkTicket "Address validation API errors" "Open" "David Lee" "P2"
       "Third-party address validation service returning 500 errors for Canadian addresses."
       "2025-01-17" "2025-01-17") ].

Definition CONFLUENCE_DOCS : list (string * Doc) :=
  [ ("checkout-rewrite",
     mkDoc "Checkout Rewrite Q2 2025"
       "Project is 75% complete and on track for Q2 delivery. Main focus areas: Safari compatibility, payment flow optimization, mobile UX improvements."
       "2025-01-15");
    ("mobile-strategy",
     mkDoc "Mobile Optimization Strategy 2025"
       "Mobile conversion funnel analysis shows Safari-specific issues affecting iOS users. Target: improve mobile conversion rate by 15% through performance and UX enhancements."
       "2025-01-10");
    ("payment-architecture",
     mkDoc "Payment Flow Architecture"
       "Current payment architecture uses Stripe webhooks for order confirmation. Known issues: webhook timeouts during peak traffic, retry logic needs improvement."
       "2025-01-12") ].

(** ** Tools, organised by intent *)

(** *** Search tools *)

(** The searched fields of a ticket, in the order of the test. *)
Definition jira_fields (ticket : Ticket) : list string :=
  [ticket_title ticket; ticket_description ticket; ticket_priority ticket;
   ticket_status ticket; ticket_assignee ticket].

(** The test of the loop of [search_jira]. *)
Definition jira_match (query_lower : string) (ticket : Ticket) : bool :=
  str_contains query_lower (PyStr.lower (ticket_title ticket)) ||
  str_contains query_lower (PyStr.lower (ticket_description ticket)) ||
  str_contains query_lower (PyStr.lower (ticket_priority ticket)) ||
  str_contains query_lower (PyStr.lower (ticket_status ticket)) ||
  str_contains query_lower (PyStr.lower (ticket_assignee ticket)).

(** The line appended to [results] for a ticket. *)
Definition jira_line (item : string * Ticket) : string :=
  item.1 +:+ ": " +:+ ticket_title item.2 +:+ " (Status: " +:+ ticket_status item.2
    +:+ ", Priority: " +:+ ticket_priority item.2
    +:+ ", Assignee: " +:+ ticket_assignee item.2 +:+ ")".

(** The items of [JIRA_TICKETS] that pass the test, in the order of the dict. *)
Definition jira_hits (query : string) : list (string * Ticket) :=
  let query_lower := PyStr.lower query in
  List.filter (λ item, jira_match query_lower item.2) JIRA_TICKETS.

(** [search_jira] *)
Definition search_jira (query : string) : string :=
  let results := jira_line <$> jira_hits query in
  match results with
  | [] => "No Jira tickets found matching '" +:+ query +:+ "'"
  | _ => "Found " +:+ PyStr.of_nat (length results) +:+ " ticket(s):" +:+ PyStr.nl
           +:+ PyStr.join PyStr.nl results
  end.

(** The bullet U+2022, in UTF-8. *)
Definition bullet : string :=
  String (ascii_of_nat 226) (String (ascii_of_nat 128) (String (ascii_of_nat 162) "")).

Definition confluence_match (query_lower : string) (doc : Doc) : bool :=
  str_contains query_lower (PyStr.lower (doc_title doc)) ||
  str_contains query_lower (PyStr.lower (doc_content doc)).

Definition confluence_line (item : string * Doc) : string :=
  bullet +:+ " " +:+ doc_title item.2 +:+ " (Key: " +:+ item.1
    +:+ ", Updated: " +:+ doc_updated item.2 +:+ ")".

Definition confluence_hits (query : string) : list (string * Doc) :=
  let query_lower := PyStr.lower query in
  List.filter (λ item, confluence_match query_lower item.2) CONFLUENCE_DOCS.

(** [search_confluence] *)
Definition search_confluence (query : string) : string :=
  let results := confluence_line <$> confluence_hits query in
  match results with
  | [] => "No Confluence docs found matching '" +:+ query +:+ "'"
  | _ => "Found " +:+ PyStr.of_nat (length results) +:+ " document(s):" +:+ PyStr.nl
           +:+ PyStr.join PyStr.nl results
  end.

(** *** Retrieve tools *)

(** The text returned for a ticket that was found, under the id as asked. *)
Definition ticket_details (ticket_id : string) (ticket : Ticket) : string :=
  "Ticket " +:+ ticket_id +:+ ": " +:+ ticket_title ticket +:+ PyStr.nl
    +:+ "Status: " +:+ ticket_status ticket +:+ PyStr.nl
    +:+ "Assignee: " +:+ ticket_assignee ticket +:+ PyStr.nl
    +:+ "Priority: " +:+ ticket_priority ticket +:+ PyStr.nl
    +:+ "Created: " +:+ ticket_created ticket +:+ PyStr.nl
    +:+ "Updated: " +:+ ticket_updated ticket +:+ PyStr.nl
    +:+ PyStr.nl
    +:+ "Description:" +:+ PyStr.nl
    +:+ ticket_description ticket.

(** [get_ticket_details] *)
Definition get_ticket_details (ticket_id : string) : string :=
  match dict_get JIRA_TICKETS (PyStr.upper ticket_id) with
  | None => "Ticket " +:+ ticket_id +:+ " not found"
  | Some ticket => ticket_details ticket_id ticket
  end.

Definition doc_text (doc : Doc) : string :=
  doc_title doc +:+ PyStr.nl
    +:+ "Last updated: " +:+ doc_updated doc +:+ PyStr.nl
    +:+ PyStr.nl
    +:+ "Content:" +:+ PyStr.nl
    +:+ doc_content doc.

(** [get_confluence_doc] *)
Definition get_confluence_doc (doc_key : string) : string :=
  match dict_get CONFLUENCE_DOCS doc_key with
  | None => "Document '" +:+ doc_key +:+ "' not found. Available keys: "
              +:+ PyStr.join ", " (dict_keys CONFLUENCE_DOCS)
  | Some doc => doc_text doc
  end.

(** ** Python values *)

(** A value of a step dict: a [str], or another object, given by the text
    that [str()] prints for it. *)
Inductive pyval :=
| PyText (s : string)
| PyOther (printed : string).

Coercion PyText : string >-> pyval.


(** [str(v)], the text an f-string puts for [v]. *)
Definition py_str (v : pyval) : string :=
  match v with
  | PyText s => s
  | PyOther printed => printed
  end.

(** ** Plan step schema *)

(** The dataclass declares both fields [str] and checks neither: the
    subquery is whatever value the step dict held. *)
Record PlanStep := mkPlanStep {
  subquery : pyval;
  intent : string
}.

(** [PlanStep.__repr__] *)
Definition PlanStep_repr (st : PlanStep) : string :=
  "[" +:+ intent st +:+ "] " +:+ py_str (subquery st).

(** The dicts appended to [step_results]. *)
Record StepResult := mkStepResult {
  step_id : nat;
  step : PlanStep;
  answer : string
}.

(** The [dspy.Prediction] returned by the orchestrator. *)
Record Prediction := mkPrediction {
  final_answer : string;
  plan : list PlanStep;
  step_results : list StepResult
}.

(** Exceptions leaving [forward]: the failed subscript [self.agents[k]],
    the missing attribute of [v.lower()] on a value that is not a text, and
    whatever a DSPy module (the planner, an agent) raises. *)
Inductive exn :=
| KeyError (key : string)
| AttributeError (attr : string)
| ModuleError (msg : string).

Abbreviation result := (sum exn).

#[export] Instance result_ret : MRet result := λ _ a, inr a.
#[export] Instance result_bind : MBind result := λ _ _ k m,
  match m with
  | inl e => inl e
  | inr a => k a
  end.

(** ** Specialised agents *)

(** An agent wraps a [dspy.ReAct] program, a function of the question and
    the context that answers or raises. *)
Record Agent := mkAgent {
  react : pyval → string → string + string
}.

(** [SearchAgent.forward], [RetrieveAgent.forward], [AnalyzeAgent.forward]:
    the three bodies are the same. *)
Definition Agent_forward (a : Agent) (question : pyval) (context : string) : result string :=
  match react a question (PyStr.or context "No previous context") with
  | inl msg => inl (ModuleError msg)
  | inr ans => inr ans
  end.

(** A raw step of the planner. *)
Abbreviation step_dict := (gmap string pyval).

(** ** Stub collaborators

    Deterministic stand-ins for the language-model modules: an agent that
    returns a fixed text, one that raises, and planners that return a fixed
    raw plan. *)

Definition stub_agent (ans : string) : Agent := mkAgent (λ _ _, inr ans).

Definition failing_agent (msg : string) : Agent := mkAgent (λ _ _, inl msg).

(** An agent that answers with the context it was given, between brackets. *)
Definition echo_agent : Agent :=
  mkAgent (λ _ context, inr ("[" +:+ context +:+ "]")).

Definition stub_planner (raw : list step_dict) : string → string → string + list step_dict :=
  λ _ _, inr raw.

Definition raw_step (sq it : string) : step_dict :=
  {[ "subquery" := PyText sq; "intent" := PyText it ]}.

(** ** Orchestrator with intent-based routing *)

Section ScoutOrchestrator.

(** [self.planner], called with the question and the intent descriptions,
    and the fixed text of [self.intent_descriptions]. *)
Variable planner : string → string → string + list step_dict.
Variable intent_descriptions : string.

(** The three agents built in [__init__]. *)
Variables SearchAgent RetrieveAgent AnalyzeAgent : Agent.

(** [self.agents]: the intent-based agent registry. *)
Definition agents : gmap string Agent :=
  {[ "search" := SearchAgent;
     "retrieve" := RetrieveAgent;
     "analyze" := AnalyzeAgent ]}.

(** [v.lower()]: a text has the method, no other value has. *)
Definition py_lower (v : pyval) : result string :=
  match v with
  | PyText s => inr (PyStr.lower s)
  | PyOther _ => inl (AttributeError "lower")
  end.

(** The body of the conversion loop: one step dict to one [PlanStep]. *)
Definition to_plan_step (question : string) (d : step_dict) : result PlanStep :=
  intent ← py_lower (default (PyText "search") (d !! "intent"));
  let intent :=
    match agents !! intent with
    | None => "search"
    | Some _ => intent
    end in
  mret (mkPlanStep (default (PyText question) (d !! "subquery")) intent).

(** The conversion loop: the steps in the order of the raw plan, up to the
    first step dict on which the body raises. *)
Fixpoint convert (question : string) (raw : list step_dict) : result (list PlanStep) :=
  match raw with
  | [] => mret []
  | d :: raw' =>
      st ← to_plan_step question d;
      steps ← convert question raw';
      mret (st :: steps)
  end.

(** Conversion to [PlanStep] objects followed by the empty-plan fallback. *)
Definition validate (question : string) (raw : list step_dict) : result (list PlanStep) :=
  steps ← convert question raw;
  mret match steps with
       | [] => [mkPlanStep (PyText question) "search"]
       | _ => steps
       end.

(** [self.agents[k]] *)
Definition agents_getitem (k : string) : result Agent :=
  match agents !! k with
  | None => inl (KeyError k)
  | Some a => inr a
  end.

(** The text appended to [accumulated_context] after step [i]. *)
Definition context_entry (i : nat) (st : PlanStep) (ans : string) : string :=
  PyStr.nl +:+ "Step " +:+ PyStr.of_nat i +:+ " (" +:+ intent st +:+ "): "
    +:+ ans +:+ PyStr.nl.

(** The execution loop over [enumerate(steps)], from index [i] on, with the
    two loop-carried variables passed along. *)
Fixpoint execute (i : nat) (steps : list PlanStep)
    (step_results : list StepResult) (accumulated_context : string)
    : result (list StepResult * string) :=
  match steps with
  | [] => mret (step_results, accumulated_context)
  | st :: rest =>
      agent ← agents_getitem (intent st);
      ans ← Agent_forward agent (subquery st) accumulated_context;
      execute (S i) rest
        (step_results ++ [mkStepResult i st ans])
        (accumulated_context +:+ context_entry i st ans)
  end.

(** The label line of one result in a multi-step answer. *)
Definition labelled (sr : StepResult) : string :=
  "**" +:+ PyStr.upper (intent (step sr)) +:+ "**: " +:+ answer sr.

(** Synthesis of the final answer. *)
Definition synthesize (step_results : list StepResult) : string :=
  match step_results with
  | [sr] => answer sr
  | _ => PyStr.join (PyStr.nl +:+ PyStr.nl) (labelled <$> step_results)
  end.

(** [ScoutOrchestrator.forward] *)
Definition forward (question : string) : result Prediction :=
  plan_result ← match planner question intent_descriptions with
                | inl msg => inl (ModuleError msg)
                | inr p => inr p
                end;
  steps ← validate question plan_result;
  '(step_results, _) ← execute 0 steps [] "";
  mret (mkPrediction (synthesize step_results) steps step_results).

(** The labelled rendering of one result, a line that names the index of
    the step in decimal, its intent and its answer, and the renderings of a
    result log one after the other: what the context is required to hold,
    read off the log instead of the loop. *)
Definition rendered (sr : StepResult) : string :=
  PyStr.nl +:+ "Step " +:+ pretty (step_id sr) +:+ " (" +:+ intent (step sr)
    +:+ "): " +:+ answer sr +:+ PyStr.nl.

Fixpoint rendered_context (rs : list StepResult) : string :=
  match rs with
  | [] => ""
  | sr :: rs' => rendered sr +:+ rendered_context rs'
  end.

(** Texts put one after the other with an empty line between two of them. *)
Fixpoint blank_line_joined (l : list string) : string :=
  match l with
  | [] => ""
  | [x] => x
  | x :: l' => x +:+ PyStr.nl +:+ PyStr.nl +:+ blank_line_joined l'
  end.

(** Two characters that are the same, or the two cases of one of the
    letters A to Z. *)
Definition same_letter (c1 c2 : ascii) : bool :=
  let n1 := nat_of_ascii c1 in
  let n2 := nat_of_ascii c2 in
  (n1 =? n2)%nat
  || ((65 <=? n1)%nat && (n1 <=? 90)%nat && (n2 =? n1 + 32)%nat)
  || ((65 <=? n2)%nat && (n2 <=? 90)%nat && (n1 =? n2 + 32)%nat).

(** Two spellings of one word that differ in the case of letters only. *)
Fixpoint case_variant (s1 s2 : string) : bool :=
  match s1, s2 with
  | EmptyString, EmptyString => true
  | String c1 s1', String c2 s2' => same_letter c1 c2 && case_variant s1' s2'
  | _, _ => false
  end.


(** ** Strings *)

Lemma string_app_assoc (s1 s2 s3 : string) :
  (s1 +:+ s2) +:+ s3 = s1 +:+ (s2 +:+ s3).
Proof.
  induction s1 as [|c s1 IH]; [done|].
  change (String c ((s1 +:+ s2) +:+ s3) = String c (s1 +:+ (s2 +:+ s3))).
  by rewrite IH.
Qed.

Lemma string_app_nil_r (s : string) : s +:+ "" = s.
Proof.
  induction s as [|c s IH]; [done|].
  change (String c (s +:+ "") = String c s). by rewrite IH.
Qed.

Lemma rendered_context_app (rs1 rs2 : list StepResult) :
  rendered_context (rs1 ++ rs2) = rendered_context rs1 +:+ rendered_context rs2.
Proof.
  induction rs1 as [|sr rs1 IH]; [done|].
  rewrite <- app_comm_cons. cbn [rendered_context].
  by rewrite IH, string_app_assoc.
Qed.

(** ** The registry *)

Lemma agents_lookup (k : string) :
  agents !! k =
    if decide (k = "search") then Some SearchAgent
    else if decide (k = "retrieve") then Some RetrieveAgent
    else if decide (k = "analyze") then Some AnalyzeAgent
    else None.
Proof.
  unfold agents.
  repeat (rewrite lookup_insert; case_decide; subst; simpl; [done|]).
  rewrite lookup_singleton.
  repeat case_decide; congruence.
Qed.

Lemma agents_search : agents !! "search" = Some SearchAgent.
Proof. by rewrite agents_lookup. Qed.

Lemma agents_lookup_inv (k : string) (ag : Agent) :
  agents !! k = Some ag →
  (k = "search" ∧ ag = SearchAgent) ∨
  (k = "retrieve" ∧ ag = RetrieveAgent) ∨
  (k = "analyze" ∧ ag = AnalyzeAgent).
Proof.
  rewrite agents_lookup. repeat case_decide; intros [= <-]; subst; auto.
Qed.

Lemma registry_key_lower (k : string) :
  k ∈ dom agents → PyStr.lower k = k.
Proof.
  intros [ag Hag]%elem_of_dom.
  by destruct (agents_lookup_inv _ _ Hag) as [[-> _]|[[-> _]|[-> _]]].
Qed.

(** ** The error monad *)

Lemma bind_inl {A B} (e : exn) (k : A → result B) : inl e ≫= k = inl e.
Proof. reflexivity. Qed.

Lemma bind_inr {A B} (a : A) (k : A → result B) : inr a ≫= k = k a.
Proof. reflexivity. Qed.

Lemma bind_inr_inv {A B} (m : result A) (k : A → result B) (b : B) :
  m ≫= k = inr b → ∃ a, m = inr a ∧ k a = inr b.
Proof. destruct m as [e|a]; [done|]. rewrite bind_inr. eauto. Qed.

(** ** Case variants *)

Lemma lower_char_fixed_not_upper (c : ascii) :
  PyStr.lower_char c = c → PyStr.is_upper c = false.
Proof.
  unfold PyStr.lower_char. destruct (PyStr.is_upper c) eqn:E; [|done].
  intros H. apply (f_equal nat_of_ascii) in H.
  pose proof (nat_ascii_bounded c) as Hb.
  unfold PyStr.is_upper in E. cbn zeta in E.
  apply andb_true_iff in E as [_ E%Nat.leb_le].
  rewrite nat_ascii_embedding in H by lia. lia.
Qed.

Lemma same_letter_lower (c1 c2 : ascii) :
  PyStr.lower_char c2 = c2 →
  same_letter c1 c2 = true ↔ PyStr.lower_char c1 = c2.
Proof.
  intros Hfix. pose proof (lower_char_fixed_not_upper c2 Hfix) as Hnu.
  pose proof (nat_ascii_bounded c1) as Hb1.
  unfold same_letter, PyStr.lower_char, PyStr.is_upper in *. cbn zeta in *.
  set (n1 := nat_of_ascii c1) in *. set (n2 := nat_of_ascii c2) in *.
  rewrite Hnu, andb_false_l, orb_false_r.
  destruct ((65 <=? n1)%nat && (n1 <=? 90)%nat) eqn:E1.
  - apply andb_true_iff in E1 as [E1a%Nat.leb_le E1b%Nat.leb_le].
    rewrite andb_true_l, orb_true_iff, !Nat.eqb_eq. split.
    + intros [H|H].
      * exfalso. subst n1 n2. apply andb_false_iff in Hnu.
        rewrite !Nat.leb_gt in Hnu. lia.
      * subst n2. rewrite <- H. apply ascii_nat_embedding.
    + intros H. right. subst n2. rewrite <- H.
      by rewrite nat_ascii_embedding by lia.
  - rewrite andb_false_l, orb_false_r, Nat.eqb_eq. split.
    + intros H. subst n1 n2.
      by rewrite <- (ascii_nat_embedding c1), H, ascii_nat_embedding.
    + by intros ->.
Qed.

Lemma case_variant_lower (s k : string) :
  PyStr.lower k = k →
  case_variant s k = true ↔ PyStr.lower s = k.
Proof.
  revert k. induction s as [|c s IH]; intros [|c' k] Hk; cbn [case_variant PyStr.lower];
    try done.
  cbn [PyStr.lower] in Hk. injection Hk as Hc Hk.
  rewrite andb_true_iff, (same_letter_lower _ _ Hc), (IH _ Hk).
  split; [by intros [-> ->]|by intros [= -> ->]].
Qed.

(** ** Plan repair *)

Lemma to_plan_step_text (question : string) (d : step_dict) (it : string) :
  d !! "intent" = Some (PyText it) →
  to_plan_step question d =
    inr (mkPlanStep (default (PyText question) (d !! "subquery"))
           match agents !! PyStr.lower it with
           | None => "search"
           | Some _ => PyStr.lower it
           end).
Proof. unfold to_plan_step. by intros ->. Qed.

Lemma to_plan_step_missing (question : string) (d : step_dict) :
  d !! "intent" = None →
  to_plan_step question d =
    inr (mkPlanStep (default (PyText question) (d !! "subquery")) "search").
Proof.
  unfold to_plan_step. intros ->. cbn [default py_lower]. rewrite bind_inr.
  change (PyStr.lower "search") with "search". by rewrite agents_search.
Qed.

Lemma to_plan_step_inr (question : string) (d : step_dict) (st : PlanStep) :
  to_plan_step question d = inr st →
  is_Some (agents !! intent st) ∧
  subquery st = default (PyText question) (d !! "subquery").
Proof.
  unfold to_plan_step. intros (it & _ & [= <-])%bind_inr_inv.
  split; [|done]. cbn [intent].
  destruct (agents !! it) eqn:E; [rewrite E; eauto|].
  rewrite agents_search; eauto.
Qed.

Lemma convert_cons (question : string) (d : step_dict) (raw : list step_dict) :
  convert question (d :: raw) =
    st ← to_plan_step question d;
    steps ← convert question raw;
    mret (st :: steps).
Proof. reflexivity. Qed.

Lemma convert_inr (question : string) (raw : list step_dict) :
  ∀ steps, convert question raw = inr steps →
    Forall2 (λ d st, to_plan_step question d = inr st) raw steps.
Proof.
  induction raw as [|d raw IH]; intros steps.
  - intros [= <-]. constructor.
  - rewrite convert_cons.
    intros (st & Hst & (steps' & Hsteps & [= <-])%bind_inr_inv)%bind_inr_inv.
    constructor; [done|by apply IH].
Qed.


Lemma validate_inr (question : string) (raw : list step_dict) (steps : list PlanStep) :
  validate question raw = inr steps →
  (raw = [] ∧ steps = [mkPlanStep (PyText question) "search"]) ∨
  (raw ≠ [] ∧ Forall2 (λ d st, to_plan_step question d = inr st) raw steps).
Proof.
  unfold validate. intros (cs & Hcs & [= <-])%bind_inr_inv.
  apply convert_inr in Hcs. destruct Hcs as [|d st raw cs Hd Hrest].
  - by left.
  - right. split; [done|]. by constructor.
Qed.

Lemma validate_lookup (question : string) (raw : list step_dict)
    (steps : list PlanStep) (i : nat) (d : step_dict) :
  validate question raw = inr steps →
  raw !! i = Some d →
  ∃ st, to_plan_step question d = inr st ∧ steps !! i = Some st.
Proof.
  intros [[-> _]|[_ Hall]]%validate_inr Hd; [done|].
  destruct (Forall2_lookup_l _ _ _ _ _ Hall Hd) as (st & Hst & Hconv). eauto.
Qed.

Lemma validate_registered (question : string) (raw : list step_dict)
    (steps : list PlanStep) :
  validate question raw = inr steps →
  Forall (λ st, is_Some (agents !! intent st)) steps.
Proof.
  intros [[_ ->]|[_ Hall]]%validate_inr.
  - constructor; [|constructor]. cbn [intent]. rewrite agents_search; eauto.
  - induction Hall as [|d st raw steps Hd _ IH]; constructor; [|done].
    by apply to_plan_step_inr in Hd as [? _].
Qed.




(** C8. An empty raw plan is repaired to exactly one step, whose subquery
    is the original question and whose intent is the default, search. *)
Theorem validate_empty_plan (question : string) :
  validate question [] = inr [mkPlanStep question "search"].
Proof. reflexivity. Qed.

(** C6 (amended). A raw step whose intent, once lower-cased, is not a key
    of the registry is repaired to the default intent search, and the
    subquery it carries is kept as it is. *)
Theorem unknown_intent_defaults
    (question : string) (raw : list step_dict) (i : nat) (d : step_dict) (it : string) :
  raw !! i = Some d →
  d !! "intent" = Some (PyText it) →
  PyStr.lower it ∉ dom agents →
  ∃ st, to_plan_step question d = inr st ∧
        (∀ steps, validate question raw = inr steps → steps !! i = Some st) ∧
        intent st = "search" ∧
        ∀ sq, d !! "subquery" = Some sq → subquery st = sq.
Proof.
  intros Hd Hit Hnot. eexists. split; [by apply to_plan_step_text|].
  apply not_elem_of_dom in Hnot. rewrite Hnot. split; [|split].
  - intros steps Hval.
    destruct (validate_lookup _ _ _ _ _ Hval Hd) as (st & Hst & Hi).
    rewrite (to_plan_step_text _ _ _ Hit), Hnot in Hst. by injection Hst as <-.
  - done.
  - intros sq Hsq. cbn [subquery]. by rewrite Hsq.
Qed.

(** C7 (amended). A raw step without a subquery key is repaired with the
    original question as its subquery; a subquery that is present, blank
    or not, is kept as it is. *)
Theorem missing_subquery_defaults
    (question : string) (raw : list step_dict) (steps : list PlanStep)
    (i : nat) (d : step_dict) :
  validate question raw = inr steps →
  raw !! i = Some d →
  ∃ st, steps !! i = Some st ∧
        (d !! "subquery" = None → subquery st = question) ∧
        (∀ sq, d !! "subquery" = Some sq → subquery st = sq).
Proof.
  intros Hval Hd.
  destruct (validate_lookup _ _ _ _ _ Hval Hd) as (st & Hst & Hi).
  exists st. split; [done|].
  apply to_plan_step_inr in Hst as [_ ->].
  split; [by intros ->|by intros sq ->].
Qed.

(** C10. The intent of a raw step is lower-cased before the registry is
    consulted: a spelling that differs from a registry key in the case of
    letters only (SEARCH, Retrieve) is repaired to that key, in lower case,
    and not to the default; a spelling that is a case variant of no registry
    key is repaired to the default, search. *)
Theorem intent_lowercased_before_lookup
    (question : string) (raw : list step_dict) (i : nat) (d : step_dict) (it : string) :
  raw !! i = Some d →
  d !! "intent" = Some (PyText it) →
  ∃ st, to_plan_step question d = inr st ∧
        (∀ steps, validate question raw = inr steps → steps !! i = Some st) ∧
        (∀ k, k ∈ dom agents → case_variant it k = true → intent st = k) ∧
        ((∀ k, k ∈ dom agents → case_variant it k = false) → intent st = "search") ∧
        (PyStr.lower it ∈ dom agents → intent st = PyStr.lower it) ∧
        (PyStr.lower it ∉ dom agents → intent st = "search").
Proof.
  intros Hd Hit. eexists. split; [by apply to_plan_step_text|].
  cbn [intent].
  assert (PyStr.lower it ∈ dom agents →
          match agents !! PyStr.lower it with
          | None => "search" | Some _ => PyStr.lower it end = PyStr.lower it) as Hin.
  { intros [ag Hag]%elem_of_dom. by rewrite Hag. }
  assert (PyStr.lower it ∉ dom agents →
          match agents !! PyStr.lower it with
          | None => "search" | Some _ => PyStr.lower it end = "search") as Hout.
  { intros Hnot%not_elem_of_dom. by rewrite Hnot. }
  split; [|split; [|split; [|split]]]; try done.
  - intros steps Hval.
    destruct (validate_lookup _ _ _ _ _ Hval Hd) as (st & Hst & Hi).
    rewrite (to_plan_step_text _ _ _ Hit) in Hst. by injection Hst as <-.
  - intros k Hk Hcv.
    apply (case_variant_lower it k (registry_key_lower k Hk)) in Hcv.
    rewrite <- Hcv in Hk. rewrite (Hin Hk). done.
  - intros Hnone. apply Hout. intros Hk.
    pose proof (Hnone _ Hk) as Hcv.
    assert (case_variant it (PyStr.lower it) = true) as Htrue.
    { apply case_variant_lower; [by apply registry_key_lower|done]. }
    congruence.
Qed.

(** ** The execution loop *)

Lemma agents_getitem_Some (k : string) (ag : Agent) :
  agents !! k = Some ag → agents_getitem k = inr ag.
Proof. unfold agents_getitem. by intros ->. Qed.

Lemma Agent_forward_not_KeyError (ag : Agent) (q : pyval) (c key : string) :
  Agent_forward ag q c ≠ inl (KeyError key).
Proof. unfold Agent_forward. by destruct (react ag q _). Qed.

Lemma execute_cons (i : nat) (st : PlanStep) (rest : list PlanStep)
    (rs : list StepResult) (ctx : string) :
  execute i (st :: rest) rs ctx =
    agent ← agents_getitem (intent st);
    ans ← Agent_forward agent (subquery st) ctx;
    execute (S i) rest (rs ++ [mkStepResult i st ans])
      (ctx +:+ context_entry i st ans).
Proof. reflexivity. Qed.

Lemma execute_app (pre post : list PlanStep) :
  ∀ (i : nat) (rs : list StepResult) (ctx : string),
    execute i (pre ++ post) rs ctx =
      execute i pre rs ctx ≫= λ st',
        execute (i + length pre) post st'.1 st'.2.
Proof.
  induction pre as [|st pre IH]; intros i rs ctx.
  - cbn [app execute length]. rewrite Nat.add_0_r. reflexivity.
  - rewrite <- app_comm_cons, !execute_cons.
    destruct (agents_getitem (intent st)) as [e|ag]; [done|].
    rewrite !bind_inr.
    destruct (Agent_forward ag (subquery st) ctx) as [e|ans]; [done|].
    rewrite !bind_inr, IH. cbn [length].
    by rewrite Nat.add_succ_comm.
Qed.

Lemma execute_inv (steps : list PlanStep) :
  ∀ (i : nat) (rs : list StepResult) (ctx : string) rs' ctx',
    execute i steps rs ctx = inr (rs', ctx') →
    ∃ new, rs' = rs ++ new ∧
           ctx' = ctx +:+ rendered_context new ∧
           length new = length steps ∧
           ∀ j sr, new !! j = Some sr →
             step_id sr = i + j ∧ steps !! j = Some (step sr).
Proof.
  induction steps as [|st steps IH]; intros i rs ctx rs' ctx' Hex.
  - injection Hex as <- <-. exists [].
    rewrite app_nil_r, string_app_nil_r. repeat split; done.
  - rewrite execute_cons in Hex.
    destruct (agents_getitem (intent st)) as [e|ag]; [done|].
    rewrite bind_inr in Hex.
    destruct (Agent_forward ag (subquery st) ctx) as [e|ans]; [done|].
    rewrite bind_inr in Hex.
    apply IH in Hex as (new & -> & -> & Hlen & Hnew).
    exists (mkStepResult i st ans :: new). repeat split.
    + by rewrite <- app_assoc.
    + cbn [rendered_context]. by rewrite string_app_assoc.
    + cbn [length]. by rewrite Hlen.
    + destruct j as [|j]; cbn in H; [injection H as <-; simpl; lia|].
      apply Hnew in H as [-> _]. lia.
    + destruct j as [|j]; cbn in H; [by injection H as <-|].
      by apply Hnew in H as [_ ?].
Qed.

Lemma execute_log_in_plan_order (steps : list PlanStep)
    (rs : list StepResult) (ctx : string) :
  execute 0 steps [] "" = inr (rs, ctx) → step <$> rs = steps.
Proof.
  intros (new & Hrs & _ & Hlen & Hnew)%execute_inv. cbn in Hrs. subst rs.
  apply list_eq_same_length with (length steps);
    [done|by rewrite length_fmap|].
  intros j x y _. rewrite list_lookup_fmap.
  destruct (new !! j) as [sr|] eqn:E; [|done].
  intros [= <-] Hy. apply Hnew in E as [_ E]. congruence.
Qed.

Lemma execute_not_KeyError (steps : list PlanStep) (key : string) :
  Forall (λ st, is_Some (agents !! intent st)) steps →
  ∀ (i : nat) (rs : list StepResult) (ctx : string),
    execute i steps rs ctx ≠ inl (KeyError key).
Proof.
  induction 1 as [|st steps [ag Hag] _ IH]; intros i rs ctx; [done|].
  rewrite execute_cons, (agents_getitem_Some _ _ Hag), bind_inr.
  destruct (Agent_forward ag (subquery st) ctx) as [e|ans] eqn:E.
  - rewrite bind_inl. intros [= ->]. by eapply Agent_forward_not_KeyError.
  - rewrite bind_inr. apply IH.
Qed.

Lemma execute_resume (pre : list PlanStep) (st : PlanStep) (post : list PlanStep)
    (rs : list StepResult) (ctx : string) :
  execute 0 pre [] "" = inr (rs, ctx) →
  execute 0 (pre ++ st :: post) [] "" =
    agent ← agents_getitem (intent st);
    ans ← Agent_forward agent (subquery st) ctx;
    execute (S (length pre)) post
      (rs ++ [mkStepResult (length pre) st ans])
      (ctx +:+ context_entry (length pre) st ans).
Proof. intros Hex. by rewrite execute_app, Hex, bind_inr, execute_cons. Qed.

Lemma rendered_context_foldr (rs : list StepResult) :
  rendered_context rs = foldr (λ sr acc, rendered sr +:+ acc) "" rs.
Proof. induction rs as [|sr rs IH]; [done|]. cbn [rendered_context foldr]. by rewrite IH. Qed.

(** C3. The context handed to the agent of step [i] is the text the loop
    holds after the steps before it: empty for the first step, and in
    general exactly the labelled renderings of the results of steps 0..i-1
    one after the other, the rendering of a result being the line
    Step, index, intent between brackets, colon, answer, between two line
    feeds; each rendering is a substring at its place, in the order of the
    steps.  The context is fixed by the steps before [i] alone, whatever
    step [i] and the later steps are, and the loop is the only place it
    grows. *)
Theorem context_threading
    (pre : list PlanStep) (st : PlanStep) (post : list PlanStep)
    (rs : list StepResult) (ctx : string) :
  let render := λ sr : StepResult,
    PyStr.nl +:+ "Step " +:+ pretty (step_id sr) +:+ " (" +:+ intent (step sr)
      +:+ "): " +:+ answer sr +:+ PyStr.nl in
  let renderings := foldr (λ sr acc, render sr +:+ acc) "" in
  execute 0 pre [] "" = inr (rs, ctx) →
  (pre = [] → ctx = "") ∧
  ctx = renderings rs ∧
  length rs = length pre ∧
  (∀ j sr, rs !! j = Some sr →
     step_id sr = j ∧ pre !! j = Some (step sr) ∧
     ctx = renderings (take j rs) +:+ render sr +:+ renderings (drop (S j) rs)) ∧
  execute 0 (pre ++ st :: post) [] "" =
    agent ← agents_getitem (intent st);
    ans ← Agent_forward agent (subquery st) ctx;
    execute (S (length pre)) post
      (rs ++ [mkStepResult (length pre) st ans])
      (ctx +:+ context_entry (length pre) st ans).
Proof.
  intros render renderings Hex.
  assert (render = rendered) as Hr by reflexivity.
  assert (∀ l, renderings l = rendered_context l) as Hren
    by (intros l; symmetry; apply rendered_context_foldr).
  clearbody renderings render. subst render.
  split; [by intros ->; injection Hex as _ <-|].
  destruct (execute_inv _ _ _ _ _ _ Hex) as (new & Hrs & Hctx & Hlen & Hnew).
  cbn in Hrs. change ("" +:+ rendered_context new) with (rendered_context new) in Hctx.
  subst rs ctx. split; [by rewrite Hren|]. split; [done|]. split.
  - intros j sr Hj. destruct (Hnew _ _ Hj) as [Hid Hst].
    split; [done|]. split; [done|]. rewrite !Hren.
    change (rendered sr +:+ rendered_context (drop (S j) new))
      with (rendered_context (sr :: drop (S j) new)).
    by rewrite <- rendered_context_app, take_drop_middle.
  - by apply execute_resume.
Qed.

Lemma forward_validated (question : string) (raw : list step_dict)
    (steps : list PlanStep) :
  planner question intent_descriptions = inr raw →
  validate question raw = inr steps →
  forward question =
    execute 0 steps [] "" ≫= λ st',
      mret (mkPrediction (synthesize st'.1) steps st'.1).
Proof.
  intros Hplan Hval. unfold forward. rewrite Hplan, bind_inr. cbn beta.
  rewrite Hval, bind_inr. cbn beta.
  by destruct (execute 0 steps [] "") as [e|[rs ctx]].
Qed.

Lemma to_plan_step_inl (question : string) (d : step_dict) (e : exn) :
  to_plan_step question d = inl e →
  e = AttributeError "lower" ∧ ∃ printed, d !! "intent" = Some (PyOther printed).
Proof.
  unfold to_plan_step.
  destruct (d !! "intent") as [[it|printed]|];
    cbv [default py_lower mbind result_bind mret result_ret id]; [done| |done].
  intros [= <-]. eauto.
Qed.

Lemma convert_inl (question : string) (raw : list step_dict) (e : exn) :
  convert question raw = inl e →
  e = AttributeError "lower" ∧
  ∃ d printed, d ∈ raw ∧ d !! "intent" = Some (PyOther printed).
Proof.
  induction raw as [|d raw IH]; [done|].
  rewrite convert_cons.
  destruct (to_plan_step question d) as [e'|st] eqn:Hd.
  - rewrite bind_inl. intros [= <-].
    apply to_plan_step_inl in Hd as [-> [printed Hp]].
    split; [done|]. exists d, printed. split; [apply list_elem_of_here|done].
  - rewrite bind_inr.
    destruct (convert question raw) as [e'|steps]; [|by rewrite bind_inr].
    rewrite bind_inl. intros [= <-].
    destruct (IH eq_refl) as [-> (d' & printed & Hin & Hp)].
    split; [done|]. exists d', printed.
    split; [by apply list_elem_of_further|done].
Qed.

Lemma validate_inl (question : string) (raw : list step_dict) (e : exn) :
  validate question raw = inl e →
  e = AttributeError "lower" ∧
  ∃ d printed, d ∈ raw ∧ d !! "intent" = Some (PyOther printed).
Proof.
  unfold validate.
  destruct (convert question raw) as [e'|steps] eqn:Hc; [|by rewrite bind_inr].
  rewrite bind_inl. intros [= <-]. by apply convert_inl in Hc.
Qed.

(** C2 (amended). When the agent of step [i] raises, after the steps
    before it ran, the exception leaves [forward]: the call returns no
    prediction, records no result for step [i] and runs none of the later
    steps, whatever they are. *)
Theorem handler_failure_propagates
    (question : string) (raw : list step_dict)
    (pre : list PlanStep) (st : PlanStep) (post : list PlanStep)
    (rs : list StepResult) (ctx : string) (ag : Agent) (e : exn) :
  planner question intent_descriptions = inr raw →
  validate question raw = inr (pre ++ st :: post) →
  execute 0 pre [] "" = inr (rs, ctx) →
  agents !! intent st = Some ag →
  Agent_forward ag (subquery st) ctx = inl e →
  execute 0 (pre ++ st :: post) [] "" = inl e ∧
  forward question = inl e.
Proof.
  intros Hplan Hval Hpre Hag Hfail.
  assert (execute 0 (pre ++ st :: post) [] "" = inl e) as Hex.
  { rewrite (execute_resume pre st post rs ctx Hpre).
    by rewrite (agents_getitem_Some _ _ Hag), bind_inr, Hfail. }
  split; [done|].
  by rewrite (forward_validated _ _ _ Hplan Hval), Hex.
Qed.

(** C5. For a validated plan of exactly one step, the final answer is the
    answer of that step's agent, character for character, with no label
    and nothing else added. *)
Theorem single_step_answer_verbatim
    (question : string) (raw : list step_dict) (st : PlanStep)
    (ag : Agent) (ans : string) :
  planner question intent_descriptions = inr raw →
  validate question raw = inr [st] →
  agents !! intent st = Some ag →
  Agent_forward ag (subquery st) "" = inr ans →
  forward question = inr (mkPrediction ans [st] [mkStepResult 0 st ans]).
Proof.
  intros Hplan Hval Hag Hans.
  rewrite (forward_validated _ _ _ Hplan Hval).
  rewrite execute_cons, (agents_getitem_Some _ _ Hag), bind_inr.
  by rewrite Hans.
Qed.

(** C9. Every step of a validated plan resolves in the registry: the
    subscript [self.agents[step.intent]] of the execution loop finds an
    agent, and neither the loop nor [forward] ever leaves with the
    [KeyError] of a failed lookup. *)
Theorem registry_lookup_never_fails (question : string) (raw : list step_dict) :
  (∀ steps st, validate question raw = inr steps → st ∈ steps →
               ∃ ag, agents_getitem (intent st) = inr ag) ∧
  (∀ steps key, validate question raw = inr steps →
                execute 0 steps [] "" ≠ inl (KeyError key)) ∧
  (∀ key, forward question ≠ inl (KeyError key)).
Proof.
  split; [|split].
  - intros steps st Hval Hst.
    pose proof (validate_registered _ _ _ Hval) as Hall.
    rewrite Forall_forall in Hall. destruct (Hall st Hst) as [ag Hag].
    exists ag. by apply agents_getitem_Some.
  - intros steps key Hval. by eapply execute_not_KeyError, validate_registered.
  - intros key. unfold forward.
    destruct (planner question intent_descriptions) as [msg|raw']; [done|].
    rewrite bind_inr. cbn beta.
    destruct (validate question raw') as [e|steps] eqn:Hval.
    { rewrite bind_inl. intros [= ->]. by apply validate_inl in Hval as [? _]. }
    rewrite bind_inr. cbn beta.
    destruct (execute 0 steps [] "") as [e|[rs ctx]] eqn:E.
    + rewrite bind_inl. intros [= ->].
      by eapply execute_not_KeyError, E; eapply validate_registered.
    + done.
Qed.

(** ** Synthesis *)

Lemma join_blank_line (l : list string) :
  PyStr.join (PyStr.nl +:+ PyStr.nl) l = blank_line_joined l.
Proof.
  unfold PyStr.join.
  induction l as [|x [|y l] IH]; [done|done|].
  change (x +:+ (PyStr.nl +:+ PyStr.nl)
            +:+ String.concat (PyStr.nl +:+ PyStr.nl) (y :: l)
          = x +:+ PyStr.nl +:+ PyStr.nl +:+ blank_line_joined (y :: l)).
  by rewrite IH, string_app_assoc.
Qed.

(** C4 (amended). A result log of two or more results is synthesised by
    rendering each result, in the order of the log, as the intent in upper
    case between two pairs of asterisks, a colon, a space and the answer,
    and by putting an empty line between the renderings; the rendering at
    position [i] is that of result [i], and the log of a run holds the
    steps of the plan in the plan's order. *)
Theorem synthesize_many_labelled (rs : list StepResult) :
  (2 ≤ length rs)%nat →
  synthesize rs =
    blank_line_joined
      ((λ sr, "**" +:+ PyStr.upper (intent (step sr)) +:+ "**: " +:+ answer sr)
         <$> rs) ∧
  (∀ i sr, rs !! i = Some sr →
    (labelled <$> rs) !! i =
      Some ("**" +:+ PyStr.upper (intent (step sr)) +:+ "**: " +:+ answer sr)) ∧
  (∀ steps ctx, execute 0 steps [] "" = inr (rs, ctx) → step <$> rs = steps).
Proof.
  intros Hlen. split; [|split].
  - destruct rs as [|sr1 [|sr2 rs]]; cbn [length] in Hlen; [lia|lia|].
    unfold synthesize. by rewrite join_blank_line.
  - intros i sr Hi. by rewrite list_lookup_fmap, Hi.
  - intros steps ctx. apply execute_log_in_plan_order.
Qed.

(** ** Further properties of the orchestrator *)

Lemma forward_inr (question : string) (p : Prediction) :
  forward question = inr p →
  ∃ raw ctx, planner question intent_descriptions = inr raw ∧
             validate question raw = inr (plan p) ∧
             execute 0 (plan p) [] "" = inr (step_results p, ctx) ∧
             final_answer p = synthesize (step_results p).
Proof.
  unfold forward.
  destruct (planner question intent_descriptions) as [msg|raw] eqn:Hplan;
    [by rewrite bind_inl|].
  rewrite bind_inr. cbn beta.
  destruct (validate question raw) as [e|steps] eqn:Hval; [by rewrite bind_inl|].
  rewrite bind_inr. cbn beta.
  destruct (execute 0 steps [] "") as [e|[rs ctx]] eqn:Hex;
    [by rewrite bind_inl|].
  rewrite bind_inr. intros [= <-]. by exists raw, ctx.
Qed.


(** X1. The prediction of a call that returns carries the repaired plan of
    the planner's raw plan, the synthesis of its result log, and a log with
    one result per plan step, in plan order: the result at position [i] has
    step id [i] and holds step [i] of the plan. *)
Theorem forward_log_aligned (question : string) (p : Prediction) :
  forward question = inr p →
  ∃ raw, planner question intent_descriptions = inr raw ∧
         validate question raw = inr (plan p) ∧
         final_answer p = synthesize (step_results p) ∧
         length (step_results p) = length (plan p) ∧
         ∀ i sr, step_results p !! i = Some sr →
                 step_id sr = i ∧ plan p !! i = Some (step sr).
Proof.
  intros (raw & ctx & Hplan & Hval & Hex & Hans)%forward_inr.
  apply execute_inv in Hex as (new & Hrs & _ & Hlen & Hnew). cbn in Hrs.
  exists raw. split; [done|]. split; [done|]. split; [done|].
  rewrite Hrs. split; [done|].
  intros i sr Hi. by apply Hnew in Hi.
Qed.



(** X4. A raw step that is already well formed passes through repair
    unchanged: with a subquery and an intent that is a registry key, the
    repaired step at its position is that subquery with that intent. *)
Theorem well_formed_step_kept
    (question : string) (raw : list step_dict) (i : nat) (d : step_dict)
    (sq : pyval) (it : string) :
  raw !! i = Some d →
  d !! "subquery" = Some sq →
  d !! "intent" = Some (PyText it) →
  it ∈ dom agents →
  to_plan_step question d = inr (mkPlanStep sq it) ∧
  ∀ steps, validate question raw = inr steps →
           steps !! i = Some (mkPlanStep sq it).
Proof.
  intros Hd Hsq Hit Hin.
  assert (to_plan_step question d = inr (mkPlanStep sq it)) as Hst.
  { rewrite (to_plan_step_text _ _ _ Hit), Hsq. cbn [default].
    rewrite (registry_key_lower _ Hin).
    apply elem_of_dom in Hin as [ag Hag]. by rewrite Hag. }
  split; [done|]. intros steps Hval.
  destruct (validate_lookup _ _ _ _ _ Hval Hd) as (st & Hst' & Hi). congruence.
Qed.

(** X5. Repair neither drops nor adds a step, the fallback apart: the
    repaired plan is as long as the raw plan, and of length one when the raw
    plan is empty. *)
Theorem validate_length (question : string) (raw : list step_dict)
    (steps : list PlanStep) :
  validate question raw = inr steps →
  length steps = Nat.max 1 (length raw).
Proof.
  intros [[-> ->]|[Hne Hall]]%validate_inr; [done|].
  rewrite <- (Forall2_length _ _ _ Hall).
  destruct raw; [done|]. cbn [length]. lia.
Qed.

(** X6. A raw step without an intent key is repaired to the intent search. *)
Theorem missing_intent_defaults
    (question : string) (raw : list step_dict) (i : nat) (d : step_dict) :
  raw !! i = Some d →
  d !! "intent" = None →
  ∃ st, to_plan_step question d = inr st ∧
        (∀ steps, validate question raw = inr steps → steps !! i = Some st) ∧
        intent st = "search" ∧
        subquery st = default (PyText question) (d !! "subquery").
Proof.
  intros Hd Hit. eexists. split; [by apply to_plan_step_missing|].
  split; [|done]. intros steps Hval.
  destruct (validate_lookup _ _ _ _ _ Hval Hd) as (st & Hst & Hi).
  rewrite (to_plan_step_missing _ _ Hit) in Hst. by injection Hst as <-.
Qed.



(** X8. Every result of a call that returns carries an intent of the
    registry, hence every label of a final answer is SEARCH, RETRIEVE or
    ANALYZE. *)
Theorem final_answer_labels (question : string) (p : Prediction) (sr : StepResult) :
  forward question = inr p →
  sr ∈ step_results p →
  intent (step sr) ∈ dom agents ∧
  PyStr.upper (intent (step sr)) ∈ ["SEARCH"; "RETRIEVE"; "ANALYZE"].
Proof.
  intros (raw & ctx & _ & Hval & Hex & _)%forward_inr Hsr.
  apply list_elem_of_lookup in Hsr as [i Hi].
  apply execute_inv in Hex as (new & Hrs & _ & _ & Hnew).
  cbn in Hrs. rewrite Hrs in Hi. apply Hnew in Hi as [_ Hst].
  apply list_elem_of_lookup_2 in Hst.
  pose proof (validate_registered _ _ _ Hval) as Hall.
  rewrite Forall_forall in Hall. destruct (Hall _ Hst) as [ag Hag].
  split; [apply elem_of_dom; eauto|].
  clear Hnew Hst Hall.
  destruct (agents_lookup_inv _ _ Hag) as [[Hk _]|[[Hk _]|[Hk _]]];
    rewrite Hk; vm_compute; set_solver.
Qed.

(** X9. The loop only appends: from any loop state, the results and the
    context it starts from are a prefix of those it ends with, and it adds
    one result per step. *)
Theorem execute_append_only
    (i : nat) (steps : list PlanStep) (rs : list StepResult) (ctx : string)
    (rs' : list StepResult) (ctx' : string) :
  execute i steps rs ctx = inr (rs', ctx') →
  rs `prefix_of` rs' ∧
  (∃ s, ctx' = ctx +:+ s) ∧
  length rs' = length rs + length steps.
Proof.
  intros (new & -> & -> & Hlen & _)%execute_inv. repeat split.
  - by exists new.
  - by eexists.
  - by rewrite length_app, Hlen.
Qed.

(** X10. The printed form of a step of a validated plan identifies the
    step: two steps with registry intents and the same [repr] have the same
    intent and subqueries that print alike, and are equal when their
    subqueries are texts, as the dataclass declares them. *)
Theorem PlanStep_repr_injective (st1 st2 : PlanStep) :
  intent st1 ∈ dom agents →
  intent st2 ∈ dom agents →
  PlanStep_repr st1 = PlanStep_repr st2 →
  intent st1 = intent st2 ∧
  py_str (subquery st1) = py_str (subquery st2) ∧
  (∀ s1 s2 : string, subquery st1 = s1 → subquery st2 = s2 → st1 = st2).
Proof.
  intros [ag1 H1]%elem_of_dom [ag2 H2]%elem_of_dom.
  destruct st1 as [sq1 it1], st2 as [sq2 it2]. cbn [intent subquery] in *.
  unfold PlanStep_repr. cbn [intent subquery].
  assert (it1 = it2 ∧ py_str sq1 = py_str sq2 →
          it1 = it2 ∧ py_str sq1 = py_str sq2 ∧
          ∀ s1 s2 : string, sq1 = s1 → sq2 = s2 →
            mkPlanStep sq1 it1 = mkPlanStep sq2 it2) as Hfin.
  { intros [-> Hs]. split; [done|]. split; [done|].
    intros s1 s2 -> ->. cbn [py_str] in Hs. by rewrite Hs. }
  destruct (agents_lookup_inv _ _ H1) as [[-> _]|[[-> _]|[-> _]]];
    destruct (agents_lookup_inv _ _ H2) as [[-> _]|[[-> _]|[-> _]]];
    cbv [String.append]; intros Heq;
    first [discriminate Heq | apply Hfin; split; [done|by injection Heq]].
Qed.

End ScoutOrchestrator.

(** ** The properties on the stub collaborators *)



(** C2: the amended statement at a plan of three steps whose second agent
    raises. *)
Lemma handler_failure_propagates_witness :
  let raw := [raw_step "find P0 tickets" "search";
              raw_step "get most critical" "retrieve";
              raw_step "check Safari user metrics" "analyze"] in
  let S := stub_agent "S1" in
  let R := failing_agent "timeout" in
  let A := stub_agent "S3" in
  execute S R A 0
    ([mkPlanStep "find P0 tickets" "search"]
     ++ mkPlanStep "get most critical" "retrieve"
        :: [mkPlanStep "check Safari user metrics" "analyze"]) [] ""
    = inl (ModuleError "timeout") ∧
  forward (stub_planner raw) "intents" S R A "q" = inl (ModuleError "timeout").
Proof.
  intros raw S R A.
  apply (handler_failure_propagates (stub_planner raw) "intents" S R A "q" raw
           [mkPlanStep "find P0 tickets" "search"]
           (mkPlanStep "get most critical" "retrieve")
           [mkPlanStep "check Safari user metrics" "analyze"]
           [mkStepResult 0 (mkPlanStep "find P0 tickets" "search") "S1"]
           (context_entry 0 (mkPlanStep "find P0 tickets" "search") "S1")
           R (ModuleError "timeout"));
    vm_compute; reflexivity.
Defined.

(** C2, as stated, fails: with a retrieve agent that raises, the call on a
    plan of three steps returns no prediction at all, hence no degraded
    result for the failed step and no result for the step after it. *)
Lemma handler_failure_aborts_plan :
  let raw := [raw_step "find P0 tickets" "search";
              raw_step "get most critical" "retrieve";
              raw_step "check Safari user metrics" "analyze"] in
  let S := stub_agent "S1" in
  let R := failing_agent "timeout" in
  let A := stub_agent "S3" in
  validate S R A "q" raw =
    inr [mkPlanStep "find P0 tickets" "search";
         mkPlanStep "get most critical" "retrieve";
         mkPlanStep "check Safari user metrics" "analyze"] ∧
  (∀ context, Agent_forward R "get most critical" context
              = inl (ModuleError "timeout")) ∧
  ¬ ∃ p, forward (stub_planner raw) "intents" S R A "q" = inr p.
Proof.
  intros raw S R A. split; [by vm_compute|]. split; [done|].
  intros [p Hp]. vm_compute in Hp. discriminate Hp.
Qed.

(** C3 at a plan of two steps: the retrieve agent of step 1 is handed the
    rendering of the result of step 0, and echoes it. *)
Lemma context_threading_witness :
  let s0 := mkPlanStep "find P0 tickets" "search" in
  let s1 := mkPlanStep "get most critical" "retrieve" in
  let r0 := mkStepResult 0 s0 "S1" in
  let c0 := PyStr.nl +:+ "Step 0 (search): S1" +:+ PyStr.nl in
  let S := stub_agent "S1" in
  let R := echo_agent in
  let A := stub_agent "S3" in
  execute S R A 0 [s0] [] "" = inr ([r0], c0) ∧
  c0 = foldr (λ sr acc,
                (PyStr.nl +:+ "Step " +:+ pretty (step_id sr) +:+ " ("
                   +:+ intent (step sr) +:+ "): " +:+ answer sr +:+ PyStr.nl)
                +:+ acc) "" [r0] ∧
  execute S R A 0 ([s0] ++ [s1]) [] "" =
    inr ([r0; mkStepResult 1 s1 ("[" +:+ c0 +:+ "]")],
         c0 +:+ PyStr.nl +:+ "Step 1 (retrieve): [" +:+ c0 +:+ "]" +:+ PyStr.nl).
Proof.
  intros s0 s1 r0 c0 S R A.
  assert (execute S R A 0 [s0] [] "" = inr ([r0], c0)) as Hex
    by (vm_compute; reflexivity).
  split; [exact Hex|].
  pose proof (context_threading S R A [s0] s1 [] [r0] c0) as H.
  cbv zeta in H. destruct (H Hex) as (_ & Hc & _ & _ & He).
  split; [exact Hc|]. rewrite He. vm_compute. reflexivity.
Defined.

(** C4: the amended statement at the log of a search and a retrieve step. *)
Lemma synthesize_many_labelled_witness :
  let r0 := mkStepResult 0 (mkPlanStep "find P0 tickets" "search") "S1" in
  let r1 := mkStepResult 1 (mkPlanStep "get most critical" "retrieve") "S2" in
  synthesize [r0; r1] =
    "**SEARCH**: S1" +:+ PyStr.nl +:+ PyStr.nl +:+ "**RETRIEVE**: S2".
Proof.
  intros r0 r1.
  destruct (synthesize_many_labelled (stub_agent "S1") (stub_agent "S2")
              (stub_agent "S3") [r0; r1]) as [-> _];
    [vm_compute; lia|reflexivity].
Defined.

(** C4, as stated, fails: the labels of the final answer carry two asterisks
    on either side, so the answer of a search and a retrieve step is not the
    text made of the bare upper-case intents. *)
Lemma synthesize_label_not_bare :
  let r0 := mkStepResult 0 (mkPlanStep "find P0 tickets" "search") "S1" in
  let r1 := mkStepResult 1 (mkPlanStep "get most critical" "retrieve") "S2" in
  (2 ≤ length [r0; r1])%nat ∧
  synthesize [r0; r1] ≠
    blank_line_joined
      ((λ sr, PyStr.upper (intent (step sr)) +:+ ": " +:+ answer sr)
         <$> [r0; r1]) ∧
  synthesize [r0; r1] ≠ "SEARCH: S1" +:+ PyStr.nl +:+ PyStr.nl +:+ "RETRIEVE: S2".
Proof.
  intros r0 r1. split; [simpl; lia|]. split; by vm_compute.
Qed.

(** C5 at the plan of the one retrieve step of a ticket question. *)
Lemma single_step_answer_verbatim_witness :
  let st := mkPlanStep "Get details for ticket SHOP-2847" "retrieve" in
  let raw := [raw_step "Get details for ticket SHOP-2847" "retrieve"] in
  let ans := "Ticket SHOP-2847: Safari checkout crashes on iOS 17" in
  forward (stub_planner raw) "intents"
    (stub_agent "S1") (stub_agent ans) (stub_agent "S3")
    "Get details for ticket SHOP-2847"
  = inr (mkPrediction ans [st] [mkStepResult 0 st ans]).
Proof.
  intros st raw ans.
  apply (single_step_answer_verbatim (stub_planner raw) "intents"
           (stub_agent "S1") (stub_agent ans) (stub_agent "S3")
           "Get details for ticket SHOP-2847" raw st (stub_agent ans) ans);
    vm_compute; reflexivity.
Defined.

(** C6: the amended statement at a step with the intent summarize. *)
Lemma unknown_intent_defaults_witness :
  let S := stub_agent "S1" in
  let R := stub_agent "S2" in
  let A := stub_agent "S3" in
  let d := raw_step "summarise the open tickets" "summarize" in
  ∃ st, to_plan_step S R A "q" d = inr st ∧
        (∀ steps, validate S R A "q" [d] = inr steps → steps !! 0 = Some st) ∧
        intent st = "search" ∧
        ∀ sq, d !! "subquery" = Some sq → subquery st = sq.
Proof.
  intros S R A d.
  apply (unknown_intent_defaults S R A "q" [d] 0 d "summarize").
  - reflexivity.
  - vm_compute; reflexivity.
  - apply not_elem_of_dom. vm_compute; reflexivity.
Defined.

(** C6, as stated, fails: the intent Retrieve is not a key of the registry,
    whose keys are in lower case, and yet the repaired step carries the
    intent retrieve, not the default. *)
Lemma case_variant_intent_not_defaulted :
  let S := stub_agent "S1" in
  let R := stub_agent "S2" in
  let A := stub_agent "S3" in
  let d := raw_step "get most critical" "Retrieve" in
  (d !! "intent" = Some (PyText "Retrieve")) ∧
  ("Retrieve" ∉ dom (agents S R A)) ∧
  (validate S R A "q" [d] = inr [mkPlanStep "get most critical" "retrieve"]) ∧
  intent (mkPlanStep "get most critical" "retrieve") ≠ "search".
Proof.
  intros S R A d. split; [by vm_compute|]. split.
  - apply not_elem_of_dom. by vm_compute.
  - split; by vm_compute.
Qed.

(** C7: the amended statement at a step without a subquery key. *)
Lemma missing_subquery_defaults_witness :
  let S := stub_agent "S1" in
  let R := stub_agent "S2" in
  let A := stub_agent "S3" in
  let question := "How are mobile conversions trending?" in
  let d : step_dict := {[ "intent" := PyText "analyze" ]} in
  ∃ st, [mkPlanStep question "analyze"] !! 0 = Some st ∧
        (d !! "subquery" = None → subquery st = question) ∧
        (∀ sq, d !! "subquery" = Some sq → subquery st = sq).
Proof.
  intros S R A question d.
  apply (missing_subquery_defaults S R A question [d]
           [mkPlanStep question "analyze"] 0 d).
  - vm_compute; reflexivity.
  - reflexivity.
Defined.

(** C7, as stated, fails: a subquery of white space only, and an empty one,
    are kept; the question does not replace them. *)
Lemma blank_subquery_kept :
  let S := stub_agent "S1" in
  let R := stub_agent "S2" in
  let A := stub_agent "S3" in
  let question := "How are mobile conversions trending?" in
  PyStr.is_blank "   " = true ∧
  PyStr.is_blank "" = true ∧
  validate S R A question [raw_step "   " "analyze"; raw_step "" "analyze"]
    = inr [mkPlanStep "   " "analyze"; mkPlanStep "" "analyze"] ∧
  "   " ≠ question ∧ "" ≠ question.
Proof.
  intros S R A question. repeat split; by vm_compute.
Qed.

(** C10 at the spellings SEARCH and Retrieve: they are case variants of
    the registry keys search and retrieve, and the repaired steps carry
    these keys; Retrieve is not repaired to the default. *)
Lemma intent_lowercased_before_lookup_witness :
  let S := stub_agent "S1" in
  let R := stub_agent "S2" in
  let A := stub_agent "S3" in
  let raw := [raw_step "find Safari issues" "SEARCH";
              raw_step "get ticket SHOP-2847" "Retrieve"] in
  (∃ st, to_plan_step S R A "q" (raw_step "find Safari issues" "SEARCH") = inr st ∧
         (∀ steps, validate S R A "q" raw = inr steps → steps !! 0 = Some st) ∧
         intent st = "search") ∧
  (∃ st, to_plan_step S R A "q" (raw_step "get ticket SHOP-2847" "Retrieve") = inr st ∧
         (∀ steps, validate S R A "q" raw = inr steps → steps !! 1 = Some st) ∧
         intent st = "retrieve" ∧
         intent st ≠ "search").
Proof.
  intros S R A raw. split.
  - destruct (intent_lowercased_before_lookup S R A "q" raw 0
                (raw_step "find Safari issues" "SEARCH") "SEARCH")
      as (st & Hst & Hplan & Hkeep & _);
      [reflexivity|vm_compute; reflexivity|].
    exists st. split; [exact Hst|]. split; [exact Hplan|].
    apply Hkeep; [|vm_compute; reflexivity].
    apply elem_of_dom. eexists. vm_compute; reflexivity.
  - destruct (intent_lowercased_before_lookup S R A "q" raw 1
                (raw_step "get ticket SHOP-2847" "Retrieve") "Retrieve")
      as (st & Hst & Hplan & Hkeep & _);
      [reflexivity|vm_compute; reflexivity|].
    exists st. split; [exact Hst|]. split; [exact Hplan|].
    assert (intent st = "retrieve") as Hk.
    { apply Hkeep; [|vm_compute; reflexivity].
      apply elem_of_dom. eexists. vm_compute; reflexivity. }
    split; [exact Hk|]. rewrite Hk. discriminate.
Defined.

(** The spellings SEARCH and Retrieve are repaired to search and retrieve,
    and an intent outside the registry to search. *)
Example validate_case_variants :
  validate (stub_agent "S1") (stub_agent "S2") (stub_agent "S3") "q"
    [raw_step "find Safari issues" "SEARCH";
     raw_step "get ticket SHOP-2847" "Retrieve";
     raw_step "summarise the open tickets" "Summarize"]
  = inr [mkPlanStep "find Safari issues" "search";
         mkPlanStep "get ticket SHOP-2847" "retrieve";
         mkPlanStep "summarise the open tickets" "search"].
Proof. by vm_compute. Qed.

(** ** The tools *)

Lemma string_prefix_spec (p s : string) :
  String.prefix p s = true ↔ ∃ b, s = p +:+ b.
Proof.
  revert s. induction p as [|c p IH]; intros s.
  - split; [intros _; by exists s|by destruct s].
  - destruct s as [|c' s]; cbn [String.prefix].
    + split; [done|by intros [b Hb]].
    + destruct (ascii_dec c c') as [<-|Hne].
      * rewrite IH. split; intros [b Hb]; exists b.
        -- by rewrite Hb.
        -- change (String c s = String c (p +:+ b)) in Hb. by injection Hb.
      * split; [done|]. intros [b Hb].
        change (String c' s = String c (p +:+ b)) in Hb. by injection Hb.
Qed.

Lemma str_contains_spec (sub s : string) :
  str_contains sub s = true ↔ ∃ a b, s = a +:+ sub +:+ b.
Proof.
  induction s as [|c s IH]; cbn [str_contains]; rewrite orb_true_iff.
  - rewrite string_prefix_spec. split.
    + intros [[b Hb]|?]; [|done]. by exists "", b.
    + intros (a & b & Hab). left. destruct a; [by exists b|done].
  - rewrite string_prefix_spec, IH. split.
    + intros [[b Hb]|(a & b & Hab)]; [by exists "", b|].
      exists (String c a), b. by rewrite Hab.
    + intros (a & b & Hab). destruct a as [|c' a].
      * left. by exists b.
      * right. exists a, b.
        change (String c s = String c' (a +:+ sub +:+ b)) in Hab. by injection Hab.
Qed.

Lemma lower_upper_char (c : ascii) :
  PyStr.lower_char (PyStr.upper_char c) = PyStr.lower_char c.
Proof. by destruct c as [[] [] [] [] [] [] [] []]. Qed.

Lemma lower_lower_char (c : ascii) :
  PyStr.lower_char (PyStr.lower_char c) = PyStr.lower_char c.
Proof. by destruct c as [[] [] [] [] [] [] [] []]. Qed.

Lemma lower_upper (s : string) : PyStr.lower (PyStr.upper s) = PyStr.lower s.
Proof.
  induction s as [|c s IH]; [done|].
  cbn [PyStr.lower PyStr.upper]. by rewrite lower_upper_char, IH.
Qed.

Lemma lower_lower (s : string) : PyStr.lower (PyStr.lower s) = PyStr.lower s.
Proof.
  induction s as [|c s IH]; [done|].
  cbn [PyStr.lower]. by rewrite lower_lower_char, IH.
Qed.

Lemma filter_sublist {A : Type} (f : A → bool) (l : list A) :
  List.filter f l `sublist_of` l.
Proof.
  induction l as [|x l IH]; cbn [List.filter]; [done|].
  destruct (f x); [by apply sublist_skip|by apply sublist_cons].
Qed.

Lemma filter_elem_of {A : Type} (f : A → bool) (l : list A) (x : A) :
  x ∈ List.filter f l ↔ x ∈ l ∧ f x = true.
Proof. rewrite !list_elem_of_In. apply List.filter_In. Qed.

Lemma jira_match_spec (query_lower : string) (ticket : Ticket) :
  jira_match query_lower ticket = true ↔
  ∃ field a b, field ∈ jira_fields ticket ∧
               PyStr.lower field = a +:+ query_lower +:+ b.
Proof.
  unfold jira_match, jira_fields. rewrite !orb_true_iff, !str_contains_spec.
  split.
  - intros [[[[(a & b & H)|(a & b & H)]|(a & b & H)]|(a & b & H)]|(a & b & H)];
      eexists _, a, b; (split; [|exact H]); set_solver.
  - intros (field & a & b & Hin & H).
    repeat (apply elem_of_cons in Hin as [->|Hin]; [eauto 10|]).
    by apply elem_of_nil in Hin.
Qed.

Lemma confluence_match_spec (query_lower : string) (doc : Doc) :
  confluence_match query_lower doc = true ↔
  ∃ field a b, field ∈ [doc_title doc; doc_content doc] ∧
               PyStr.lower field = a +:+ query_lower +:+ b.
Proof.
  unfold confluence_match. rewrite !orb_true_iff, !str_contains_spec.
  split.
  - intros [(a & b & H)|(a & b & H)];
      eexists _, a, b; (split; [|exact H]); set_solver.
  - intros (field & a & b & Hin & H).
    repeat (apply elem_of_cons in Hin as [->|Hin]; [eauto 10|]).
    by apply elem_of_nil in Hin.
Qed.

(** X11. For a query of ASCII characters, [search_jira] lists exactly the
    tickets one of whose title, description, priority, status or assignee
    contains the query, both in lower case; it lists them in the order of
    the dataset, one line each under a header with their number, and
    answers with the not-found text, quoting the query as typed, when there
    is none. *)
Theorem search_jira_lists_substring_matches (query : string) :
  str_is_ascii query = true →
  ∃ hits,
    hits `sublist_of` JIRA_TICKETS ∧
    (∀ item, item ∈ hits ↔
       item ∈ JIRA_TICKETS ∧
       ∃ field a b, field ∈ jira_fields item.2 ∧
                    PyStr.lower field = a +:+ PyStr.lower query +:+ b) ∧
    search_jira query =
      match hits with
      | [] => "No Jira tickets found matching '" +:+ query +:+ "'"
      | _ => "Found " +:+ PyStr.of_nat (length hits) +:+ " ticket(s):" +:+ PyStr.nl
               +:+ PyStr.join PyStr.nl (jira_line <$> hits)
      end.
Proof.
  intros _.
  exists (jira_hits query). split; [apply filter_sublist|]. split.
  - intros item. unfold jira_hits. by rewrite filter_elem_of, jira_match_spec.
  - unfold search_jira. destruct (jira_hits query) as [|item hits]; [done|].
    by rewrite length_fmap.
Qed.

(** X12. For a query of ASCII characters, [search_confluence] lists
    exactly the documents whose title or content contains the query, both
    in lower case, in the order of the dataset, one bullet line each under a
    header with their number, and answers with the not-found text when
    there is none. *)
Theorem search_confluence_lists_substring_matches (query : string) :
  str_is_ascii query = true →
  ∃ hits,
    hits `sublist_of` CONFLUENCE_DOCS ∧
    (∀ item, item ∈ hits ↔
       item ∈ CONFLUENCE_DOCS ∧
       ∃ field a b, field ∈ [doc_title item.2; doc_content item.2] ∧
                    PyStr.lower field = a +:+ PyStr.lower query +:+ b) ∧
    search_confluence query =
      match hits with
      | [] => "No Confluence docs found matching '" +:+ query +:+ "'"
      | _ => "Found " +:+ PyStr.of_nat (length hits) +:+ " document(s):" +:+ PyStr.nl
               +:+ PyStr.join PyStr.nl (confluence_line <$> hits)
      end.
Proof.
  intros _.
  exists (confluence_hits query). split; [apply filter_sublist|]. split.
  - intros item. unfold confluence_hits.
    by rewrite filter_elem_of, confluence_match_spec.
  - unfold search_confluence. destruct (confluence_hits query) as [|item hits]; [done|].
    by rewrite length_fmap.
Qed.

(** X13. The search tools do not tell upper from lower case in a query of
    ASCII characters: the upper-case and the lower-case spelling of the query
    find the same tickets and the same documents as the query, and the same
    text is returned when something is found. *)
Theorem search_case_insensitive (query : string) :
  str_is_ascii query = true →
  jira_hits (PyStr.upper query) = jira_hits query ∧
  jira_hits (PyStr.lower query) = jira_hits query ∧
  confluence_hits (PyStr.upper query) = confluence_hits query ∧
  confluence_hits (PyStr.lower query) = confluence_hits query ∧
  (jira_hits query ≠ [] → search_jira (PyStr.upper query) = search_jira query) ∧
  (confluence_hits query ≠ [] →
   search_confluence (PyStr.upper query) = search_confluence query).
Proof.
  intros _.
  assert (jira_hits (PyStr.upper query) = jira_hits query) as Hj
    by (unfold jira_hits; by rewrite lower_upper).
  assert (confluence_hits (PyStr.upper query) = confluence_hits query) as Hc
    by (unfold confluence_hits; by rewrite lower_upper).
  repeat split; try done.
  - unfold jira_hits. by rewrite lower_lower.
  - unfold confluence_hits. by rewrite lower_lower.
  - intros Hne. unfold search_jira. rewrite Hj.
    by destruct (jira_hits query).
  - intros Hne. unfold search_confluence. rewrite Hc.
    by destruct (confluence_hits query).
Qed.

Lemma str_contains_empty (s : string) : str_contains "" s = true.
Proof. by destruct s. Qed.

(** X14. The empty query matches everything: it passes the test of both
    search tools on any ticket and on any document, so that it finds all the
    tickets and all the documents of the datasets. *)
Theorem search_empty_query_lists_everything :
  (∀ ticket, jira_match (PyStr.lower "") ticket = true) ∧
  (∀ doc, confluence_match (PyStr.lower "") doc = true) ∧
  jira_hits "" = JIRA_TICKETS ∧ confluence_hits "" = CONFLUENCE_DOCS.
Proof.
  split; [|split].
  - intros ticket. unfold jira_match. cbn [PyStr.lower].
    by rewrite str_contains_empty.
  - intros doc. unfold confluence_match. cbn [PyStr.lower].
    by rewrite str_contains_empty.
  - split; by vm_compute.
Qed.

(** X15. The search tools do not look at the keys: searching for the id of
    a ticket of the dataset finds no ticket, and searching for the key of a
    document finds no document. *)
Theorem search_ignores_keys :
  Forall (λ item,
            search_jira item.1 = "No Jira tickets found matching '" +:+ item.1 +:+ "'")
         JIRA_TICKETS ∧
  Forall (λ item,
            search_confluence item.1
            = "No Confluence docs found matching '" +:+ item.1 +:+ "'")
         CONFLUENCE_DOCS.
Proof. split; repeat constructor; by vm_compute. Qed.

Lemma JIRA_TICKETS_get (item : string * Ticket) :
  item ∈ JIRA_TICKETS →
  dict_get JIRA_TICKETS item.1 = Some item.2 ∧ PyStr.upper item.1 = item.1.
Proof.
  unfold JIRA_TICKETS. intros Hin.
  repeat (apply elem_of_cons in Hin as [->|Hin]; [by vm_compute|]).
  by apply elem_of_nil in Hin.
Qed.

Lemma CONFLUENCE_DOCS_get (item : string * Doc) :
  item ∈ CONFLUENCE_DOCS →
  dict_get CONFLUENCE_DOCS item.1 = Some item.2 ∧
  dict_get CONFLUENCE_DOCS (PyStr.upper item.1) = None.
Proof.
  unfold CONFLUENCE_DOCS. intros Hin.
  repeat (apply elem_of_cons in Hin as [->|Hin]; [by vm_compute|]).
  by apply elem_of_nil in Hin.
Qed.

Lemma dict_get_None {V : Type} (d : list (string * V)) (k : string) :
  (∀ item, item ∈ d → item.1 ≠ k) → dict_get d k = None.
Proof.
  induction d as [|[k' v] d IH]; intros Hall; [done|].
  cbn [dict_get]. destruct (String.eqb_spec k' k) as [->|Hne].
  - by destruct (Hall (k, v)); [apply list_elem_of_here|].
  - apply IH. intros item Hin. apply Hall. by apply list_elem_of_further.
Qed.

(** X16. [get_ticket_details] finds a ticket under any spelling of its id
    whose upper case is the id, and the text it returns quotes the id as it
    was asked, not the id of the dataset. *)
Theorem get_ticket_details_any_case (ticket_id : string) (item : string * Ticket) :
  item ∈ JIRA_TICKETS →
  PyStr.upper ticket_id = item.1 →
  get_ticket_details ticket_id = ticket_details ticket_id item.2.
Proof.
  intros Hin Hup. unfold get_ticket_details.
  rewrite Hup. by destruct (JIRA_TICKETS_get item Hin) as [-> _].
Qed.

Lemma dict_get_not_key {V : Type} (d : list (string * V)) (k : string) :
  k ∉ dict_keys d → dict_get d k = None.
Proof.
  intros Hk. apply dict_get_None. intros item Hin <-. apply Hk.
  unfold dict_keys. apply list_elem_of_fmap. by exists item.
Qed.

(** X17. An id of ASCII characters whose upper case is no id of the
    dataset is answered with the not-found text, which quotes the id as it
    was asked. *)
Theorem get_ticket_details_not_found (ticket_id : string) :
  str_is_ascii ticket_id = true →
  PyStr.upper ticket_id ∉ dict_keys JIRA_TICKETS →
  get_ticket_details ticket_id = "Ticket " +:+ ticket_id +:+ " not found".
Proof.
  intros _ Hk. unfold get_ticket_details. by rewrite dict_get_not_key.
Qed.

(** X18. What [search_jira] finds, [get_ticket_details] retrieves: the id
    of every ticket found by a search, as listed and in lower case as well,
    gives the details of that ticket. *)
Theorem search_then_retrieve (query : string) (item : string * Ticket) :
  item ∈ jira_hits query →
  get_ticket_details item.1 = ticket_details item.1 item.2 ∧
  get_ticket_details (PyStr.lower item.1)
    = ticket_details (PyStr.lower item.1) item.2.
Proof.
  unfold jira_hits. intros [Hin _]%filter_elem_of.
  unfold JIRA_TICKETS in Hin.
  repeat (apply elem_of_cons in Hin as [->|Hin]; [by vm_compute|]).
  by apply elem_of_nil in Hin.
Qed.

(** X19. [get_confluence_doc] matches the key exactly: the key of a
    document gives its text and the upper-case spelling of that key is
    answered with the not-found text, which lists the keys of the dataset
    in their order. *)
Theorem get_confluence_doc_exact_key (item : string * Doc) :
  item ∈ CONFLUENCE_DOCS →
  get_confluence_doc item.1 = doc_text item.2 ∧
  get_confluence_doc (PyStr.upper item.1)
    = "Document '" +:+ PyStr.upper item.1
        +:+ "' not found. Available keys: checkout-rewrite, mobile-strategy, payment-architecture".
Proof.
  intros Hin. destruct (CONFLUENCE_DOCS_get item Hin) as [Hget Hup].
  unfold get_confluence_doc. by rewrite Hget, Hup.
Qed.

(** X20. What [search_confluence] finds, [get_confluence_doc] retrieves:
    the key of every document found by a search gives the text of that
    document. *)
Theorem search_confluence_then_get (query : string) (item : string * Doc) :
  item ∈ confluence_hits query →
  get_confluence_doc item.1 = doc_text item.2.
Proof.
  unfold confluence_hits. intros [Hin _]%filter_elem_of.
  unfold get_confluence_doc.
  by destruct (CONFLUENCE_DOCS_get item Hin) as [-> _].
Qed.

Lemma lower_app (s1 s2 : string) :
  PyStr.lower (s1 +:+ s2) = PyStr.lower s1 +:+ PyStr.lower s2.
Proof.
  induction s1 as [|c s1 IH]; [done|].
  change (String (PyStr.lower_char c) (PyStr.lower (s1 +:+ s2))
          = String (PyStr.lower_char c) (PyStr.lower s1 +:+ PyStr.lower s2)).
  by rewrite IH.
Qed.

Lemma str_contains_narrow (a sub b s : string) :
  str_contains (a +:+ sub +:+ b) s = true → str_contains sub s = true.
Proof.
  rewrite !str_contains_spec. intros (a' & b' & ->).
  exists (a' +:+ a), (b +:+ b'). by rewrite !string_app_assoc.
Qed.

(** X21. A longer query finds no more than a part of it: every ticket and
    every document found for a query is found for each text the query
    contains. *)
Theorem search_narrows_with_longer_query (query a b : string) :
  (∀ item, item ∈ jira_hits (a +:+ query +:+ b) → item ∈ jira_hits query) ∧
  (∀ item, item ∈ confluence_hits (a +:+ query +:+ b) → item ∈ confluence_hits query).
Proof.
  unfold jira_hits, confluence_hits. rewrite !lower_app.
  split; intros item [Hin Hm]%filter_elem_of; apply filter_elem_of; (split; [done|]).
  - unfold jira_match in *. rewrite !orb_true_iff in *.
    destruct Hm as [[[[H|H]|H]|H]|H]; apply str_contains_narrow in H; auto.
  - unfold confluence_match in *. rewrite !orb_true_iff in *.
    destruct Hm as [H|H]; apply str_contains_narrow in H; auto.
Qed.

(** ** The further properties on sample inputs *)

Lemma forward_log_aligned_witness :
  ∃ p, forward (stub_planner [raw_step "find P0 tickets" "search";
                              raw_step "get most critical" "Retrieve"])
         "intents" (stub_agent "S1") (stub_agent "S2") (stub_agent "S3") "q" = inr p ∧
       length (step_results p) = length (plan p) ∧
       final_answer p = synthesize (step_results p).
Proof.
  eexists. split; [vm_compute; reflexivity|].
  edestruct (forward_log_aligned
               (stub_planner [raw_step "find P0 tickets" "search";
                              raw_step "get most critical" "Retrieve"])
               "intents" (stub_agent "S1") (stub_agent "S2") (stub_agent "S3") "q")
    as (raw & _ & _ & Hans & Hlen & _); [vm_compute; reflexivity|].
  split; [exact Hlen|exact Hans].
Defined.



Lemma well_formed_step_kept_witness :
  let S := stub_agent "S1" in
  let R := stub_agent "S2" in
  let A := stub_agent "S3" in
  let raw := [raw_step "find P0 tickets" "search";
              raw_step "check conversions" "analyze"] in
  to_plan_step S R A "q" (raw_step "check conversions" "analyze")
    = inr (mkPlanStep "check conversions" "analyze") ∧
  ∀ steps, validate S R A "q" raw = inr steps →
           steps !! 1 = Some (mkPlanStep "check conversions" "analyze").
Proof.
  intros S R A raw.
  apply (well_formed_step_kept S R A "q" raw 1
           (raw_step "check conversions" "analyze")).
  - reflexivity.
  - vm_compute; reflexivity.
  - vm_compute; reflexivity.
  - apply elem_of_dom. eexists. vm_compute; reflexivity.
Defined.

Lemma validate_length_witness :
  length [mkPlanStep "find P0 tickets" "search";
          mkPlanStep "check conversions" "analyze"]
  = Nat.max 1 (length [raw_step "find P0 tickets" "SEARCH";
                       raw_step "check conversions" "analyze"]).
Proof.
  apply (validate_length (stub_agent "S1") (stub_agent "S2") (stub_agent "S3") "q").
  vm_compute; reflexivity.
Defined.

Lemma missing_intent_defaults_witness :
  let S := stub_agent "S1" in
  let R := stub_agent "S2" in
  let A := stub_agent "S3" in
  let d : step_dict := {[ "subquery" := PyText "find Safari issues" ]} in
  ∃ st, to_plan_step S R A "q" d = inr st ∧
        (∀ steps, validate S R A "q" [d] = inr steps → steps !! 0 = Some st) ∧
        intent st = "search" ∧
        subquery st = default (PyText "q") (d !! "subquery").
Proof.
  intros S R A d.
  apply (missing_intent_defaults S R A "q" [d] 0 d).
  - reflexivity.
  - vm_compute; reflexivity.
Defined.


Lemma final_answer_labels_witness :
  let s1 := mkPlanStep "get most critical" "retrieve" in
  intent s1 ∈ dom (agents (stub_agent "S1") (stub_agent "S2") (stub_agent "S3")) ∧
  PyStr.upper (intent s1) ∈ ["SEARCH"; "RETRIEVE"; "ANALYZE"].
Proof.
  intros s1.
  apply (final_answer_labels
           (stub_planner [raw_step "find P0 tickets" "search";
                          raw_step "get most critical" "Retrieve"])
           "intents" (stub_agent "S1") (stub_agent "S2") (stub_agent "S3") "q"
           (mkPrediction
              ("**SEARCH**: S1" +:+ PyStr.nl +:+ PyStr.nl +:+ "**RETRIEVE**: S2")
              [mkPlanStep "find P0 tickets" "search"; s1]
              [mkStepResult 0 (mkPlanStep "find P0 tickets" "search") "S1";
               mkStepResult 1 s1 "S2"])
           (mkStepResult 1 s1 "S2")).
  - vm_compute; reflexivity.
  - apply list_elem_of_further, list_elem_of_here.
Defined.

Lemma execute_append_only_witness :
  let s0 := mkPlanStep "find P0 tickets" "search" in
  let s1 := mkPlanStep "get most critical" "retrieve" in
  let r0 := mkStepResult 0 s0 "S1" in
  let r1 := mkStepResult 1 s1 "S2" in
  [r0] `prefix_of` [r0; r1] ∧
  (∃ s, context_entry 0 s0 "S1" +:+ context_entry 1 s1 "S2"
        = context_entry 0 s0 "S1" +:+ s) ∧
  length [r0; r1] = length [r0] + length [s1].
Proof.
  intros s0 s1 r0 r1.
  apply (execute_append_only (stub_agent "S1") (stub_agent "S2") (stub_agent "S3")
           1 [s1] [r0] (context_entry 0 s0 "S1")).
  vm_compute; reflexivity.
Defined.

Lemma PlanStep_repr_injective_witness :
  mkPlanStep ("Find all " +:+ "P0 tickets") "search"
  = mkPlanStep "Find all P0 tickets" ("sea" +:+ "rch").
Proof.
  destruct (PlanStep_repr_injective (stub_agent "S1") (stub_agent "S2") (stub_agent "S3")
              (mkPlanStep ("Find all " +:+ "P0 tickets") "search")
              (mkPlanStep "Find all P0 tickets" ("sea" +:+ "rch")))
    as (_ & _ & Heq).
  - apply elem_of_dom. eexists. vm_compute; reflexivity.
  - apply elem_of_dom. eexists. vm_compute; reflexivity.
  - vm_compute; reflexivity.
  - exact (Heq _ _ eq_refl eq_refl).
Defined.

Lemma search_jira_lists_substring_matches_witness :
  ∃ hits,
    hits `sublist_of` JIRA_TICKETS ∧
    (∀ item, item ∈ hits ↔
       item ∈ JIRA_TICKETS ∧
       ∃ field a b, field ∈ jira_fields item.2 ∧
                    PyStr.lower field = a +:+ PyStr.lower "Safari" +:+ b) ∧
    search_jira "Safari" =
      match hits with
      | [] => "No Jira tickets found matching '" +:+ "Safari" +:+ "'"
      | _ => "Found " +:+ PyStr.of_nat (length hits) +:+ " ticket(s):" +:+ PyStr.nl
               +:+ PyStr.join PyStr.nl (jira_line <$> hits)
      end.
Proof. apply (search_jira_lists_substring_matches "Safari"). vm_compute; reflexivity. Defined.

Lemma search_confluence_lists_substring_matches_witness :
  ∃ hits,
    hits `sublist_of` CONFLUENCE_DOCS ∧
    (∀ item, item ∈ hits ↔
       item ∈ CONFLUENCE_DOCS ∧
       ∃ field a b, field ∈ [doc_title item.2; doc_content item.2] ∧
                    PyStr.lower field = a +:+ PyStr.lower "stripe" +:+ b) ∧
    search_confluence "stripe" =
      match hits with
      | [] => "No Confluence docs found matching '" +:+ "stripe" +:+ "'"
      | _ => "Found " +:+ PyStr.of_nat (length hits) +:+ " document(s):" +:+ PyStr.nl
               +:+ PyStr.join PyStr.nl (confluence_line <$> hits)
      end.
Proof.
  apply (search_confluence_lists_substring_matches "stripe"). vm_compute; reflexivity.
Defined.

Lemma search_case_insensitive_witness :
  jira_hits (PyStr.upper "Safari") = jira_hits "Safari" ∧
  jira_hits (PyStr.lower "Safari") = jira_hits "Safari" ∧
  confluence_hits (PyStr.upper "Safari") = confluence_hits "Safari" ∧
  confluence_hits (PyStr.lower "Safari") = confluence_hits "Safari" ∧
  (jira_hits "Safari" ≠ [] → search_jira (PyStr.upper "Safari") = search_jira "Safari") ∧
  (confluence_hits "Safari" ≠ [] →
   search_confluence (PyStr.upper "Safari") = search_confluence "Safari").
Proof. apply (search_case_insensitive "Safari"). vm_compute; reflexivity. Defined.

Lemma get_ticket_details_any_case_witness :
  get_ticket_details "shop-2901"
  = ticket_details "shop-2901"
      (mkTicket "Payment gateway timeout" "Open" "Bob Smith" "P1"
         "Stripe webhook timeouts causing order confirmation delays."
         "2025-01-16" "2025-01-17").
Proof.
  apply (get_ticket_details_any_case "shop-2901"
           ("SHOP-2901",
            mkTicket "Payment gateway timeout" "Open" "Bob Smith" "P1"
              "Stripe webhook timeouts causing order confirmation delays."
              "2025-01-16" "2025-01-17")).
  - apply list_elem_of_further, list_elem_of_here.
  - vm_compute; reflexivity.
Defined.

Lemma get_ticket_details_not_found_witness :
  get_ticket_details "shop-1" = "Ticket " +:+ "shop-1" +:+ " not found".
Proof.
  apply (get_ticket_details_not_found "shop-1").
  - vm_compute; reflexivity.
  - apply (bool_decide_unpack _). vm_compute; exact I.
Defined.

Lemma search_then_retrieve_witness :
  let item := ("SHOP-2847",
               mkTicket "Safari checkout crashes on iOS 17" "In Review" "Alice Chen" "P0"
                 "Users on Safari 17/iOS report checkout crashes at payment step. Hotfix deployed yesterday, monitoring for recovery."
                 "2025-01-15" "2025-01-18") in
  get_ticket_details item.1 = ticket_details item.1 item.2 ∧
  get_ticket_details (PyStr.lower item.1)
    = ticket_details (PyStr.lower item.1) item.2.
Proof.
  intros item. apply (search_then_retrieve "Safari" item).
  vm_compute. apply list_elem_of_here.
Defined.

Lemma get_confluence_doc_exact_key_witness :
  let item := ("payment-architecture",
               mkDoc "Payment Flow Architecture"
                 "Current payment architecture uses Stripe webhooks for order confirmation. Known issues: webhook timeouts during peak traffic, retry logic needs improvement."
                 "2025-01-12") in
  get_confluence_doc item.1 = doc_text item.2 ∧
  get_confluence_doc (PyStr.upper item.1)
    = "Document '" +:+ PyStr.upper item.1
        +:+ "' not found. Available keys: checkout-rewrite, mobile-strategy, payment-architecture".
Proof.
  intros item. apply (get_confluence_doc_exact_key item).
  do 2 apply list_elem_of_further. apply list_elem_of_here.
Defined.

Lemma search_confluence_then_get_witness :
  let item := ("payment-architecture",
               mkDoc "Payment Flow Architecture"
                 "Current payment architecture uses Stripe webhooks for order confirmation. Known issues: webhook timeouts during peak traffic, retry logic needs improvement."
                 "2025-01-12") in
  get_confluence_doc item.1 = doc_text item.2.
Proof.
  intros item. apply (search_confluence_then_get "stripe" item).
  vm_compute. apply list_elem_of_here.
Defined.
